(** Shallow embedding of [packages/controllers/src/secure_admin.rs]:
    the two-step admin transfer state machine [SecureAdmin]. *)

From Stdlib Require Import String Bool List.
Import ListNotations.
Open Scope string_scope.

(** * Data model *)
Module Types.

  (** [cosmwasm_std::Addr]: a string newtype, compared with [==]. *)
Definition Addr := string.

  (** [cosmwasm_std::StdError], reduced to the message it carries. *)
Inductive StdError :=
  | GenericErr (msg : string).

  (** [SecureAdminError] *)
Inductive SecureAdminError :=
  | Std (e : StdError)
  | NotAdmin
  | NotProposedAdmin
  | AlreadyInitialized
  | AdminRoleAbolished.

  (** Rust's [Result<T, E>]. *)
Inductive Result (T E : Type) :=
  | Ok (t : T)
  | Err (e : E).
Arguments Ok {T E} t.
Arguments Err {T E} e.

  (** [struct AdminState] *)
Record AdminState := mkAdminState {
    abolished : bool;
    admin : option Addr;
    proposed : option Addr;
  }.

  (** [enum SecureAdminUpdate] *)
Inductive SecureAdminUpdate :=
  | ProposeNewAdmin (proposed : string)
  | ClearProposed
  | AcceptProposed
  | AbolishAdminRole.

  (** [enum AdminInit] *)
Inductive AdminInit :=
  | SetInitialAdmin (admin : string)
  | InitAbolishAdminRole.

  (** [SecureAdminResponse] *)
Record SecureAdminResponse := mkSecureAdminResponse {
    resp_admin : option string;
    resp_proposed : option string;
  }.

  (** [MessageInfo]: only the sender is read by this module. *)
Record MessageInfo := mkMessageInfo { sender : Addr }.

  (** [Response<C>]: [update] only ever adds attributes to
      [Response::new()], so messages, events and data stay empty and
      are left out. *)
Record Response := mkResponse { attributes : list (string * string) }.

Definition response_new : Response := mkResponse [].

  (** [Response::add_attribute] appends to the attribute list. *)
Definition add_attribute (r : Response) (key value : string) : Response :=
    mkResponse (attributes r ++ [(key, value)]).

  (** [Option::unwrap_or_else(|| "None".to_string())] *)
Definition unwrap_or_none (o : option string) : string :=
    match o with
    | Some s => s
    | None => "None"
    end.

  (** The [Item<AdminState>] storage slot: [None] when nothing is saved. *)
Definition Storage := option AdminState.

End Types.
Import Types.

(** * The state machine *)
Module SecureAdmin.
Section WithApi.

  (** [api.addr_validate] *)
Variable addr_validate : string -> Result Addr StdError.

  (** [fn state]: [may_load] with the uninitialized default. *)
Definition state (storage : Storage) : AdminState :=
    match storage with
    | Some s => s
    | None => {| abolished := false; admin := None; Types.proposed := None |}
    end.

  (** Queries *)
Definition current (storage : Storage) : option Addr :=
    admin (state storage).

Definition is_admin (storage : Storage) (addr : Addr) : bool :=
    match current storage with
    | Some a => String.eqb a addr
    | None => false
    end.

Definition proposed (storage : Storage) : option Addr :=
    Types.proposed (state storage).

Definition is_proposed (storage : Storage) (addr : Addr) : bool :=
    match proposed storage with
    | Some p => String.eqb p addr
    | None => false
    end.

Definition query (storage : Storage) : SecureAdminResponse :=
    {| resp_admin := current storage; resp_proposed := proposed storage |}.

  (** Assertions *)
Definition assert_admin (storage : Storage) (caller : Addr)
    : Result unit SecureAdminError :=
    if negb (is_admin storage caller) then Err NotAdmin else Ok tt.

Definition assert_proposed (storage : Storage) (caller : Addr)
    : Result unit SecureAdminError :=
    if negb (is_proposed storage caller) then Err NotProposedAdmin else Ok tt.

  (** [fn initialize]: returns the result and the storage afterwards. *)
Definition initialize (storage : Storage) (init_action : AdminInit)
    : Result unit SecureAdminError * Storage :=
    let st := state storage in
    if abolished st then (Err AdminRoleAbolished, storage)
    else if match admin st with Some _ => true | None => false end
    then (Err AlreadyInitialized, storage)
    else
      match init_action with
      | SetInitialAdmin a =>
          match addr_validate a with
          | Err e => (Err (Std e), storage)
          | Ok validated =>
              (Ok tt, Some {| abolished := false; admin := Some validated;
                              Types.proposed := None |})
          end
      | InitAbolishAdminRole =>
          (Ok tt, Some {| abolished := true; admin := None; Types.proposed := None |})
      end.

  (** [fn transition_state]: reads storage, never writes it. *)
Definition transition_state (storage : Storage) (sender : Addr)
    (event : SecureAdminUpdate) : Result AdminState SecureAdminError :=
    let st := state storage in
    if abolished st then Err AdminRoleAbolished
    else
      match event with
      | ProposeNewAdmin p =>
          match assert_admin storage sender with
          | Err e => Err e
          | Ok _ =>
              match addr_validate p with
              | Err e => Err (Std e)
              | Ok validated =>
                  Ok {| abolished := abolished st; admin := admin st;
                        Types.proposed := Some validated |}
              end
          end
      | AbolishAdminRole =>
          match assert_admin storage sender with
          | Err e => Err e
          | Ok _ => Ok {| abolished := true; admin := None; Types.proposed := None |}
          end
      | ClearProposed =>
          match assert_admin storage sender with
          | Err e => Err e
          | Ok _ => Ok {| abolished := abolished st; admin := admin st;
                          Types.proposed := None |}
          end
      | AcceptProposed =>
          match assert_proposed storage sender with
          | Err e => Err e
          | Ok _ => Ok {| abolished := abolished st; admin := Some sender;
                          Types.proposed := None |}
          end
      end.

  (** [fn update]: transition, save, then build the response from a
      fresh query of the saved record. *)
Definition update (storage : Storage) (info : MessageInfo)
    (upd : SecureAdminUpdate) : Result Response SecureAdminError * Storage :=
    match transition_state storage (sender info) upd with
    | Err e => (Err e, storage)
    | Ok new_state =>
        let storage' := Some new_state in
        let res := query storage' in
        (Ok (add_attribute
               (add_attribute
                  (add_attribute
                     (add_attribute response_new "action" "update_admin")
                     "admin" (unwrap_or_none (resp_admin res)))
                  "proposed" (unwrap_or_none (resp_proposed res)))
               "sender" (sender info)),
         storage')
    end.

  (** States reachable from the empty storage slot by any sequence of
      calls, failed or not. *)
Inductive reachable : Storage -> Prop :=
  | reach_fresh : reachable None
  | reach_init s i : reachable s -> reachable (snd (initialize s i))
  | reach_update s info u : reachable s -> reachable (snd (update s info u)).

End WithApi.
End SecureAdmin.

(** The record invariants of the data model. *)
Definition inv (s : AdminState) : Prop :=
  (abolished s = true -> admin s = None /\ proposed s = None) /\
  (proposed s <> None -> admin s <> None).

(** A validator in the spirit of the mock API: short inputs are rejected. *)
Definition mock_validate (s : string) : Result Addr StdError :=
  if Nat.ltb (String.length s) 3
  then Err (GenericErr "Invalid input: human address too short")
  else Ok s.

Example scenario_b :
  let s1 := snd (SecureAdmin.initialize mock_validate None (SetInitialAdmin "peter")) in
  let s2 := snd (SecureAdmin.update mock_validate s1 (mkMessageInfo "peter") (ProposeNewAdmin "miles")) in
  let r3 := SecureAdmin.update mock_validate s2 (mkMessageInfo "doc_oc") AcceptProposed in
  let s4 := snd (SecureAdmin.update mock_validate s2 (mkMessageInfo "miles") AcceptProposed) in
  SecureAdmin.proposed s2 = Some "miles" /\ fst r3 = Err NotProposedAdmin /\
  SecureAdmin.current s4 = Some "miles" /\ SecureAdmin.proposed s4 = None.
Proof. repeat split; reflexivity. Qed.

(** The uninitialized default record. *)
Definition default_state : AdminState :=
  {| abolished := false; admin := None; proposed := None |}.

(** * Properties *)
Section Properties.

Variable addr_validate : string -> Result Addr StdError.

Local Abbreviation state := SecureAdmin.state.
Local Abbreviation initialize := (SecureAdmin.initialize addr_validate).
Local Abbreviation update := (SecureAdmin.update addr_validate).
Local Abbreviation reachable := (SecureAdmin.reachable addr_validate).

  (** A failed [update] hands back the storage it was given. *)
Lemma update_err_storage storage info u e s' :
    update storage info u = (Err e, s') -> s' = storage.
  Proof.
    unfold SecureAdmin.update.
    destruct (SecureAdmin.transition_state _ _ _ _); intro H; inversion H; auto.
  Qed.

  (** A failed [initialize] hands back the storage it was given. *)
Lemma initialize_err_storage storage i e s' :
    initialize storage i = (Err e, s') -> s' = storage.
  Proof.
    unfold SecureAdmin.initialize.
    destruct (abolished (state storage)); [intro H; inversion H; auto|].
    destruct (admin (state storage)); [intro H; inversion H; auto|].
    destruct i as [a|]; [destruct (addr_validate a)|]; intro H; inversion H; auto.
  Qed.

  (** Every successful [initialize] stores a record satisfying [inv]. *)
Lemma initialize_ok_inv storage i :
    fst (initialize storage i) = Ok tt -> inv (state (snd (initialize storage i))).
  Proof.
    unfold SecureAdmin.initialize.
    destruct (abolished (state storage)); [discriminate|].
    destruct (admin (state storage)); [discriminate|].
    destruct i as [a|]; [destruct (addr_validate a)|]; simpl; try discriminate;
      intros _; unfold inv; simpl; split; intros; try discriminate; auto.
  Qed.

  (** Every successful [transition_state] yields a record satisfying [inv]. *)
Lemma transition_ok_inv storage sender u st' :
    SecureAdmin.transition_state addr_validate storage sender u = Ok st' -> inv st'.
  Proof.
    unfold SecureAdmin.transition_state, SecureAdmin.assert_admin,
      SecureAdmin.assert_proposed, SecureAdmin.is_admin, SecureAdmin.current.
    cbv zeta.
    destruct (abolished (state storage)) eqn:Hab; [discriminate|].
    destruct u as [p| | |].
    - destruct (negb _) eqn:Hn; [discriminate|].
      destruct (admin (state storage)) eqn:Had; [|discriminate].
      destruct (addr_validate p); intro H; inversion H; subst.
      unfold inv; simpl; split; intros; [discriminate|congruence].
    - destruct (negb _); intro H; inversion H; subst.
      unfold inv; simpl; split; intros; [discriminate|congruence].
    - destruct (negb _); intro H; inversion H; subst.
      unfold inv; simpl; split; intros; [discriminate|congruence].
    - destruct (negb _); intro H; inversion H; subst.
      unfold inv; simpl; split; intros; auto; discriminate.
  Qed.

Lemma update_ok_inv storage info u r :
    fst (update storage info u) = Ok r -> inv (state (snd (update storage info u))).
  Proof.
    unfold SecureAdmin.update.
    destruct (SecureAdmin.transition_state _ _ _ _) eqn:Ht; [|discriminate].
    intros _; simpl. eapply transition_ok_inv; eauto.
  Qed.

Lemma initialize_outcome storage i :
    snd (initialize storage i) = storage \/ fst (initialize storage i) = Ok tt.
  Proof.
    destruct (initialize storage i) as [[[]|e] s'] eqn:H; simpl; auto.
    left; eapply initialize_err_storage; eauto.
  Qed.

Lemma update_outcome storage info u :
    snd (update storage info u) = storage \/
    exists r, fst (update storage info u) = Ok r.
  Proof.
    destruct (update storage info u) as [[r|e] s'] eqn:H; simpl; eauto.
    left; eapply update_err_storage; eauto.
  Qed.

Lemma inv_default : inv (state None).
  Proof. unfold inv; simpl; split; intros; auto; discriminate. Qed.

  (** Every reachable storage slot reads as a record satisfying [inv]. *)
Lemma reachable_inv storage : reachable storage -> inv (state storage).
  Proof.
    induction 1 as [| s i _ IH | s info u _ IH].
    - apply inv_default.
    - destruct (initialize_outcome s i) as [E|E];
        [rewrite E; exact IH | apply initialize_ok_inv; exact E].
    - destruct (update_outcome s info u) as [E|[r E]];
        [rewrite E; exact IH | eapply update_ok_inv; exact E].
  Qed.

  (** Claim C1: once the stored record has [abolished = true], every
      [initialize] and every [update] (any request kind, any caller) fails
      with [AdminRoleAbolished] and leaves the storage slot unchanged; the
      error does not depend on the request or caller, so the check comes
      before any per-request guard.  Stated for every storage slot, hence
      for every reachable one. *)
Theorem abolished_is_terminal storage
    (Habolished : abolished (state storage) = true) :
    (forall info u, update storage info u = (Err AdminRoleAbolished, storage)) /\
    (forall i, initialize storage i = (Err AdminRoleAbolished, storage)).
  Proof.
    unfold SecureAdmin.update, SecureAdmin.transition_state, SecureAdmin.initialize.
    cbv zeta; rewrite Habolished; split; reflexivity.
  Qed.

  (** Claim C2: every successful [initialize] or [update] stores a record
      satisfying both invariants (abolished implies no admin and no
      proposal; a proposal implies an admin), and every storage slot
      reachable from the empty one satisfies them. *)
Theorem invariants_hold
    : (forall storage i, fst (initialize storage i) = Ok tt ->
         inv (state (snd (initialize storage i)))) /\
      (forall storage info u r, fst (update storage info u) = Ok r ->
         inv (state (snd (update storage info u)))) /\
      (forall storage, reachable storage -> inv (state storage)).
  Proof.
    split; [|split].
    - apply initialize_ok_inv.
    - apply update_ok_inv.
    - apply reachable_inv.
  Qed.

  (** Claim C3: in a non-abolished state, [AcceptProposed] fails with
      [NotProposedAdmin] (storage unchanged) unless the caller is the
      proposed admin, which covers [proposed = None]; when the caller is
      the proposed admin it stores [admin = Some caller], [proposed = None].
      The outcome is the same under any validator: the caller is not
      re-validated. *)
Theorem accept_proposed_spec storage caller
    (Hlive : abolished (state storage) = false) :
    let info := mkMessageInfo caller in
    (proposed (state storage) <> Some caller ->
       update storage info AcceptProposed = (Err NotProposedAdmin, storage)) /\
    (proposed (state storage) = Some caller ->
       exists r, update storage info AcceptProposed =
         (Ok r, Some {| abolished := false; admin := Some caller;
                        proposed := None |})) /\
    (forall other_validate,
       SecureAdmin.update other_validate storage info AcceptProposed =
       update storage info AcceptProposed).
  Proof.
    cbv zeta.
    unfold SecureAdmin.update, SecureAdmin.transition_state,
      SecureAdmin.assert_proposed, SecureAdmin.is_proposed, SecureAdmin.proposed.
    cbv zeta; rewrite Hlive; simpl.
    split; [|split].
    - intro Hne. destruct (Types.proposed (state storage)) as [p|]; [|reflexivity].
      destruct (String.eqb_spec p caller); [congruence|reflexivity].
    - intro He. rewrite He, String.eqb_refl. simpl. eexists; reflexivity.
    - intro v. reflexivity.
  Qed.

  (** Claim C4: in a non-abolished state, a caller that is not the current
      admin (in particular any caller when [admin = None]) gets [NotAdmin]
      from [ProposeNewAdmin] (whatever the raw identity), [ClearProposed]
      and [AbolishAdminRole], and the storage slot is unchanged. *)
Theorem non_admin_rejected storage caller
    (Hlive : abolished (state storage) = false)
    (Hnot_admin : admin (state storage) <> Some caller) :
    let info := mkMessageInfo caller in
    (forall raw, update storage info (ProposeNewAdmin raw) = (Err NotAdmin, storage)) /\
    update storage info ClearProposed = (Err NotAdmin, storage) /\
    update storage info AbolishAdminRole = (Err NotAdmin, storage).
  Proof.
    cbv zeta.
    unfold SecureAdmin.update, SecureAdmin.transition_state,
      SecureAdmin.assert_admin, SecureAdmin.is_admin, SecureAdmin.current.
    cbv zeta; rewrite Hlive; simpl.
    assert (Hb : match admin (state storage) with
                 | Some a => (a =? caller)%string | None => false end = false).
    { destruct (admin (state storage)) as [a|]; [|reflexivity].
      destruct (String.eqb_spec a caller); [congruence|reflexivity]. }
    rewrite Hb; simpl; repeat split.
  Qed.

  (** Claim C5: [initialize] (which takes no caller) fails with
      [AdminRoleAbolished] when abolished; otherwise with
      [AlreadyInitialized] when an admin is set; otherwise
      [SetInitialAdmin raw] fails with the validator's error wrapped in
      [Std], or stores [Owned(validated)] with no proposal, and the abolish
      request stores the abolished record. *)
Theorem initialize_spec storage :
    (abolished (state storage) = true -> forall i,
       initialize storage i = (Err AdminRoleAbolished, storage)) /\
    (abolished (state storage) = false -> admin (state storage) <> None ->
       forall i, initialize storage i = (Err AlreadyInitialized, storage)) /\
    (abolished (state storage) = false -> admin (state storage) = None ->
       (forall raw e, addr_validate raw = Err e ->
          initialize storage (SetInitialAdmin raw) = (Err (Std e), storage)) /\
       (forall raw a, addr_validate raw = Ok a ->
          initialize storage (SetInitialAdmin raw) =
          (Ok tt, Some {| abolished := false; admin := Some a; proposed := None |})) /\
       initialize storage InitAbolishAdminRole =
       (Ok tt, Some {| abolished := true; admin := None; proposed := None |})).
  Proof.
    unfold SecureAdmin.initialize; cbv zeta.
    split; [|split].
    - intros H i; rewrite H; reflexivity.
    - intros H Hadm i; rewrite H.
      destruct (admin (state storage)); [reflexivity|congruence].
    - intros H Hadm; rewrite H, Hadm.
      split; [|split]; [intros raw e He | intros raw a Ha |]; try rewrite He;
        try rewrite Ha; reflexivity.
  Qed.

  (** Claim C6: whenever [initialize] or [update] returns an error, the
      storage slot afterwards is the one before. *)
Theorem errors_are_atomic storage :
    (forall i e s', initialize storage i = (Err e, s') -> s' = storage) /\
    (forall info u e s', update storage info u = (Err e, s') -> s' = storage).
  Proof.
    split; intros; [eapply initialize_err_storage | eapply update_err_storage]; eauto.
  Qed.

  (** Claim C7: when the caller is the current admin and the raw identity
      validates, [ProposeNewAdmin raw] stores [proposed = Some validated]
      with [admin] and [abolished] unchanged, whatever the previous
      proposal was (it is overwritten).  Stated for every record satisfying
      [inv], which every reachable one does ([reachable_inv]). *)
Theorem propose_by_admin storage caller raw validated
    (Hinv : inv (state storage))
    (Hadmin : admin (state storage) = Some caller)
    (Hvalid : addr_validate raw = Ok validated) :
    exists r, update storage (mkMessageInfo caller) (ProposeNewAdmin raw) =
      (Ok r, Some {| abolished := abolished (state storage);
                     admin := admin (state storage);
                     proposed := Some validated |}).
  Proof.
    assert (Hlive : abolished (state storage) = false).
    { destruct (abolished (state storage)) eqn:E; [|reflexivity].
      destruct Hinv as [Hi _]; destruct (Hi E); congruence. }
    unfold SecureAdmin.update, SecureAdmin.transition_state,
      SecureAdmin.assert_admin, SecureAdmin.is_admin, SecureAdmin.current.
    cbv zeta; rewrite Hlive, Hadmin, String.eqb_refl; simpl.
    rewrite Hvalid; eexists; reflexivity.
  Qed.

  (** Claim C8: [ClearProposed] by the current admin in a non-abolished
      state always succeeds and stores [proposed = None] with [admin] and
      [abolished] unchanged; when nothing was proposed the storage slot is
      left identical; and a second call stores the same as one call. *)
Theorem clear_proposed_spec storage caller
    (Hlive : abolished (state storage) = false)
    (Hadmin : admin (state storage) = Some caller) :
    let info := mkMessageInfo caller in
    (exists r, update storage info ClearProposed =
       (Ok r, Some {| abolished := abolished (state storage);
                      admin := admin (state storage); proposed := None |})) /\
    (proposed (state storage) = None ->
       snd (update storage info ClearProposed) = storage) /\
    snd (update (snd (update storage info ClearProposed)) info ClearProposed) =
    snd (update storage info ClearProposed).
  Proof.
    cbv zeta.
    destruct storage as [[ab ad pr]|]; simpl in *; [|discriminate].
    subst ab ad.
    unfold SecureAdmin.update, SecureAdmin.transition_state,
      SecureAdmin.assert_admin, SecureAdmin.is_admin, SecureAdmin.current; simpl.
    rewrite String.eqb_refl; simpl.
    split; [eexists; reflexivity|split].
    - intro Hp; subst pr; reflexivity.
    - rewrite String.eqb_refl; reflexivity.
  Qed.

  (** Claim C9: an empty storage slot behaves as the explicitly stored
      default record under every operation and query: the same result or
      error, and the same stored record afterwards (either literally the
      same, or each slot left as it was, both of which read as the
      default). *)
Theorem absent_is_default :
    let d := Some default_state in
    (forall i, fst (initialize None i) = fst (initialize d i) /\
       (snd (initialize None i) = snd (initialize d i) \/
        (snd (initialize None i) = None /\ snd (initialize d i) = d))) /\
    (forall info u, fst (update None info u) = fst (update d info u) /\
       (snd (update None info u) = snd (update d info u) \/
        (snd (update None info u) = None /\ snd (update d info u) = d))) /\
    state None = state d /\
    SecureAdmin.current None = SecureAdmin.current d /\
    (forall a, SecureAdmin.is_admin None a = SecureAdmin.is_admin d a) /\
    SecureAdmin.proposed None = SecureAdmin.proposed d /\
    (forall a, SecureAdmin.is_proposed None a = SecureAdmin.is_proposed d a) /\
    SecureAdmin.query None = SecureAdmin.query d.
  Proof.
    cbv zeta.
    split; [|split; [|repeat split]].
    - intros [raw|]; unfold SecureAdmin.initialize; simpl;
        [destruct (addr_validate raw)|]; simpl; auto.
    - intros info [raw| | |]; unfold SecureAdmin.update,
        SecureAdmin.transition_state, SecureAdmin.assert_admin,
        SecureAdmin.assert_proposed; simpl; auto.
  Qed.

  (** Claim C10: every successful [update], whatever the request kind,
      returns exactly the four attributes [action = "update_admin"],
      [admin] and [proposed] of the stored record (rendered as the
      identity or the literal "None" when absent) and [sender]; an absent
      value and an identity spelled "None" render the same. *)
Theorem update_attributes storage info u r s'
    (Hok : update storage info u = (Ok r, s')) :
    attributes r =
      [("action", "update_admin");
       ("admin", unwrap_or_none (admin (state s')));
       ("proposed", unwrap_or_none (proposed (state s')));
       ("sender", sender info)] /\
    unwrap_or_none None = unwrap_or_none (Some "None").
  Proof.
    revert Hok; unfold SecureAdmin.update.
    destruct (SecureAdmin.transition_state _ _ _ _) as [st'|e]; intro H;
      inversion H; subst; split; reflexivity.
  Qed.

End Properties.

(** * Concrete runs *)

Definition s_abolished : Storage :=
  Some {| abolished := true; admin := None; proposed := None |}.

Definition s_peter : Storage :=
  snd (SecureAdmin.initialize mock_validate None (SetInitialAdmin "peter")).

Definition s_proposed : Storage :=
  snd (SecureAdmin.update mock_validate s_peter (mkMessageInfo "peter")
         (ProposeNewAdmin "miles")).

Lemma reachable_s_proposed : SecureAdmin.reachable mock_validate s_proposed.
Proof.
  unfold s_proposed, s_peter.
  apply SecureAdmin.reach_update, SecureAdmin.reach_init, SecureAdmin.reach_fresh.
Qed.

Lemma abolished_is_terminal_witness :
  abolished (SecureAdmin.state s_abolished) = true /\
  SecureAdmin.update mock_validate s_abolished (mkMessageInfo "doc_oc") AcceptProposed =
  (Err AdminRoleAbolished, s_abolished).
Proof.
  split; [reflexivity|].
  exact (proj1 (abolished_is_terminal mock_validate s_abolished eq_refl)
           (mkMessageInfo "doc_oc") AcceptProposed).
Defined.

Lemma invariants_hold_witness :
  SecureAdmin.reachable mock_validate s_proposed /\
  inv (SecureAdmin.state s_proposed).
Proof.
  split; [exact reachable_s_proposed|].
  exact (proj2 (proj2 (invariants_hold mock_validate)) s_proposed reachable_s_proposed).
Defined.

Lemma accept_proposed_spec_witness :
  abolished (SecureAdmin.state s_proposed) = false /\
  SecureAdmin.update mock_validate s_proposed (mkMessageInfo "doc_oc") AcceptProposed =
  (Err NotProposedAdmin, s_proposed).
Proof.
  split; [reflexivity|].
  apply (proj1 (accept_proposed_spec mock_validate s_proposed "doc_oc" eq_refl)).
  vm_compute; discriminate.
Defined.

Lemma non_admin_rejected_witness :
  abolished (SecureAdmin.state s_proposed) = false /\
  admin (SecureAdmin.state s_proposed) <> Some "doc_oc" /\
  SecureAdmin.update mock_validate s_proposed (mkMessageInfo "doc_oc") ClearProposed =
  (Err NotAdmin, s_proposed).
Proof.
  split; [reflexivity|split; [vm_compute; discriminate|]].
  apply (non_admin_rejected mock_validate s_proposed "doc_oc" eq_refl).
  vm_compute; discriminate.
Defined.

Lemma initialize_spec_witness :
  SecureAdmin.initialize mock_validate None (SetInitialAdmin "peter") =
  (Ok tt, Some {| abolished := false; admin := Some "peter"; proposed := None |}).
Proof.
  apply (proj1 (proj2 (proj2 (proj2 (initialize_spec mock_validate None)) eq_refl eq_refl))).
  reflexivity.
Defined.

Lemma errors_are_atomic_witness :
  SecureAdmin.update mock_validate s_peter (mkMessageInfo "peter") (ProposeNewAdmin "ab") =
  (Err (Std (GenericErr "Invalid input: human address too short")), s_peter) /\
  s_peter = s_peter.
Proof.
  split; [reflexivity|].
  exact (proj2 (errors_are_atomic mock_validate s_peter) (mkMessageInfo "peter")
           (ProposeNewAdmin "ab") _ s_peter eq_refl).
Defined.

Lemma propose_by_admin_witness :
  inv (SecureAdmin.state s_proposed) /\
  admin (SecureAdmin.state s_proposed) = Some "peter" /\
  mock_validate "gwen" = Ok "gwen" /\
  exists r, SecureAdmin.update mock_validate s_proposed (mkMessageInfo "peter")
              (ProposeNewAdmin "gwen") =
    (Ok r, Some {| abolished := false; admin := Some "peter";
                   proposed := Some "gwen" |}).
Proof.
  split; [exact (proj2 invariants_hold_witness)|split; [reflexivity|split; [reflexivity|]]].
  exact (propose_by_admin mock_validate s_proposed "peter" "gwen" "gwen"
           (proj2 invariants_hold_witness) eq_refl eq_refl).
Defined.

Lemma clear_proposed_spec_witness :
  abolished (SecureAdmin.state s_proposed) = false /\
  admin (SecureAdmin.state s_proposed) = Some "peter" /\
  snd (SecureAdmin.update mock_validate
         (snd (SecureAdmin.update mock_validate s_proposed (mkMessageInfo "peter") ClearProposed))
         (mkMessageInfo "peter") ClearProposed) =
  snd (SecureAdmin.update mock_validate s_proposed (mkMessageInfo "peter") ClearProposed).
Proof.
  split; [reflexivity|split; [reflexivity|]].
  exact (proj2 (proj2 (clear_proposed_spec mock_validate s_proposed "peter" eq_refl eq_refl))).
Defined.

Lemma update_attributes_witness :
  attributes (mkResponse
    [("action", "update_admin"); ("admin", "peter"); ("proposed", "miles");
     ("sender", "peter")]) =
  [("action", "update_admin"); ("admin", "peter"); ("proposed", "miles");
   ("sender", "peter")].
Proof.
  exact (proj1 (update_attributes mock_validate s_peter (mkMessageInfo "peter")
                  (ProposeNewAdmin "miles") _ s_proposed eq_refl)).
Defined.

(** * Further properties of the state machine *)
Section MoreProperties.

Variable addr_validate : string -> Result Addr StdError.

Local Abbreviation state := SecureAdmin.state.
Local Abbreviation initialize := (SecureAdmin.initialize addr_validate).
Local Abbreviation update := (SecureAdmin.update addr_validate).
Local Abbreviation reachable := (SecureAdmin.reachable addr_validate).

Ltac sa_unfold :=
  unfold SecureAdmin.update, SecureAdmin.transition_state,
    SecureAdmin.initialize, SecureAdmin.assert_admin,
    SecureAdmin.assert_proposed, SecureAdmin.is_admin,
    SecureAdmin.is_proposed, SecureAdmin.current, SecureAdmin.proposed,
    SecureAdmin.query.

(** Case split on a variable, a string comparison or a validator call. *)
Ltac sa_case :=
  match goal with
  | |- context [String.eqb ?a ?b] => destruct (String.eqb_spec a b); subst
  | |- context [match addr_validate ?r with _ => _ end] =>
      let E := fresh "E" in destruct (addr_validate r) eqn:E
  | |- context [match ?x with _ => _ end] => is_var x; destruct x
  end.

Ltac sa_crush :=
  sa_unfold; cbv zeta;
  repeat match goal with
  | s : option AdminState |- _ => destruct s as [[? ? ?]|]
  | s : Storage |- _ => destruct s as [[? ? ?]|]
  | i : MessageInfo |- _ => destruct i
  end;
  repeat (simpl; sa_case).

(** Two-step handover: the admin proposes a valid identity, the proposed
    identity accepts, and it becomes the admin with nothing pending. *)
Theorem handover_composes storage a raw p
  (Hlive : abolished (state storage) = false)
  (Hadmin : admin (state storage) = Some a)
  (Hvalid : addr_validate raw = Ok p) :
  exists r1 r2,
    update storage (mkMessageInfo a) (ProposeNewAdmin raw) =
      (Ok r1, Some {| abolished := false; admin := Some a; proposed := Some p |}) /\
    update (Some {| abolished := false; admin := Some a; proposed := Some p |})
      (mkMessageInfo p) AcceptProposed =
      (Ok r2, Some {| abolished := false; admin := Some p; proposed := None |}).
Proof.
  destruct storage as [[ab ad pr]|]; simpl in *; [|discriminate].
  subst ab ad. sa_unfold; simpl.
  rewrite !String.eqb_refl, Hvalid; simpl.
  eexists; eexists; split; reflexivity.
Qed.

(** From a state with an admin and nothing pending, [ProposeNewAdmin] by
    the admin followed by [ClearProposed] by the admin restores the stored
    record, whether or not the proposed identity validated. *)
Theorem propose_then_clear_restores storage a raw
  (Hlive : abolished (state storage) = false)
  (Hadmin : admin (state storage) = Some a)
  (Hnone : proposed (state storage) = None) :
  snd (update (snd (update storage (mkMessageInfo a) (ProposeNewAdmin raw)))
         (mkMessageInfo a) ClearProposed) = storage.
Proof.
  destruct storage as [[ab ad pr]|]; simpl in *; [|discriminate].
  subst ab ad pr. sa_unfold; simpl.
  rewrite String.eqb_refl; simpl.
  destruct (addr_validate raw); simpl; rewrite String.eqb_refl; reflexivity.
Qed.



(** Every successful [update] was made by an authorised caller, in a
    non-abolished state: the proposed admin for [AcceptProposed], the
    current admin for every other request. *)
Theorem update_caller_authorised storage info u r
  (Hok : fst (update storage info u) = Ok r) :
  abolished (state storage) = false /\
  match u with
  | AcceptProposed => SecureAdmin.is_proposed storage (sender info) = true
  | _ => SecureAdmin.is_admin storage (sender info) = true
  end.
Proof.
  revert Hok; sa_crush; intro Hok; try discriminate; split; auto.
Qed.

(** After a successful [update], a proposal is pending only if the request
    was [ProposeNewAdmin raw], and then it is the validated [raw]; every
    other successful request leaves nothing pending. *)
Theorem proposal_only_from_propose storage info u r
  (Hok : fst (update storage info u) = Ok r) :
  let s' := state (snd (update storage info u)) in
  match u with
  | ProposeNewAdmin raw =>
      exists v, addr_validate raw = Ok v /\ proposed s' = Some v
  | _ => proposed s' = None
  end.
Proof.
  revert Hok; sa_crush; intro Hok; try discriminate; simpl; eauto.
Qed.

(** In a non-abolished state with no admin and nothing pending (such as
    the empty storage slot), every [update] fails: [NotProposedAdmin] for
    [AcceptProposed], [NotAdmin] for the other requests; storage stays. *)
Theorem update_without_admin_fails storage info u
  (Hlive : abolished (state storage) = false)
  (Hno_admin : admin (state storage) = None)
  (Hno_prop : proposed (state storage) = None) :
  update storage info u =
    (Err (match u with AcceptProposed => NotProposedAdmin | _ => NotAdmin end),
     storage).
Proof.
  sa_unfold; cbv zeta; rewrite Hlive; simpl.
  rewrite Hno_admin, Hno_prop; destruct u; reflexivity.
Qed.

(** [AbolishAdminRole] by the current admin in a non-abolished state
    succeeds and stores the abolished record, dropping any pending
    proposal. *)
Theorem abolish_by_admin storage a
  (Hlive : abolished (state storage) = false)
  (Hadmin : admin (state storage) = Some a) :
  exists r, update storage (mkMessageInfo a) AbolishAdminRole =
    (Ok r, Some {| abolished := true; admin := None; proposed := None |}).
Proof.
  sa_unfold; cbv zeta; rewrite Hlive, Hadmin, String.eqb_refl; simpl.
  eexists; reflexivity.
Qed.

(** When the admin proposes an identity the validator rejects, the
    validator's error comes back wrapped in [Std] and storage is
    unchanged: the admin check passes first, then validation fails. *)
Theorem propose_invalid_by_admin storage a raw e
  (Hlive : abolished (state storage) = false)
  (Hadmin : admin (state storage) = Some a)
  (Hinvalid : addr_validate raw = Err e) :
  update storage (mkMessageInfo a) (ProposeNewAdmin raw) = (Err (Std e), storage).
Proof.
  sa_unfold; cbv zeta; rewrite Hlive, Hadmin, String.eqb_refl; simpl.
  rewrite Hinvalid; reflexivity.
Qed.

(** The assertion helpers: [assert_admin] succeeds exactly when the caller
    is the current admin and otherwise fails with [NotAdmin];
    [assert_proposed] likewise for the proposed admin and
    [NotProposedAdmin]. *)
Theorem assertions_decide storage c :
  ((SecureAdmin.current storage = Some c /\ SecureAdmin.assert_admin storage c = Ok tt) \/
   (SecureAdmin.current storage <> Some c /\ SecureAdmin.assert_admin storage c = Err NotAdmin)) /\
  ((SecureAdmin.proposed storage = Some c /\ SecureAdmin.assert_proposed storage c = Ok tt) \/
   (SecureAdmin.proposed storage <> Some c /\
    SecureAdmin.assert_proposed storage c = Err NotProposedAdmin)).
Proof.
  unfold SecureAdmin.assert_admin, SecureAdmin.assert_proposed,
    SecureAdmin.is_admin, SecureAdmin.is_proposed.
  split.
  - destruct (SecureAdmin.current storage) as [a|]; [|right; split; [discriminate|reflexivity]].
    destruct (String.eqb_spec a c); simpl; [left; subst; auto|right; split; [congruence|reflexivity]].
  - destruct (SecureAdmin.proposed storage) as [p|]; [|right; split; [discriminate|reflexivity]].
    destruct (String.eqb_spec p c); simpl; [left; subst; auto|right; split; [congruence|reflexivity]].
Qed.

(** The record is never deleted: once saved, the slot stays filled after
    any call, and every successful call leaves it filled. *)
Theorem storage_never_deleted storage :
  (storage <> None -> forall i, snd (initialize storage i) <> None) /\
  (storage <> None -> forall info u, snd (update storage info u) <> None) /\
  (forall i, fst (initialize storage i) = Ok tt -> snd (initialize storage i) <> None) /\
  (forall info u r, fst (update storage info u) = Ok r -> snd (update storage info u) <> None).
Proof.
  assert (Hi : forall i, fst (initialize storage i) = Ok tt ->
                         snd (initialize storage i) <> None).
  { intro i; sa_crush; intros H H'; discriminate. }
  assert (Hu : forall info u r, fst (update storage info u) = Ok r ->
                                snd (update storage info u) <> None).
  { intros info u r; sa_crush; intros H H'; discriminate. }
  split; [|split; [|split]]; auto.
  - intros Hs i; destruct (initialize_outcome addr_validate storage i) as [E|E];
      [rewrite E; exact Hs | exact (Hi i E)].
  - intros Hs info u; destruct (update_outcome addr_validate storage info u) as [E|[r E]];
      [rewrite E; exact Hs | exact (Hu _ _ _ E)].
Qed.

(** An identity the validator produces from some raw string. *)
Definition validated (a : Addr) : Prop := exists raw, addr_validate raw = Ok a.

Definition identities_validated (s : AdminState) : Prop :=
  (forall a, admin s = Some a -> validated a) /\
  (forall p, proposed s = Some p -> validated p).

Lemma initialize_keeps_validated storage i :
  identities_validated (state storage) ->
  identities_validated (state (snd (initialize storage i))).
Proof.
  unfold identities_validated, validated; sa_crush; intros [Ha Hp];
    split; intros x Hx; inversion Hx; subst; eauto.
Qed.

Lemma update_keeps_validated storage info u :
  identities_validated (state storage) ->
  identities_validated (state (snd (update storage info u))).
Proof.
  unfold identities_validated, validated; sa_crush; intros [Ha Hp];
    split; intros x Hx; inversion Hx; subst; eauto.
Qed.

(** In every reachable state, the admin and the proposed admin, when set,
    are identities the validator produced: [AcceptProposed] installs the
    caller without validating it, but only when it equals the proposal,
    which was validated. *)
Theorem reachable_identities_validated storage
  (Hreach : reachable storage) : identities_validated (state storage).
Proof.
  induction Hreach.
  - split; intros x Hx; discriminate.
  - apply initialize_keeps_validated; assumption.
  - apply update_keeps_validated; assumption.
Qed.

End MoreProperties.

(** * Concrete runs of the further properties *)

Lemma handover_composes_witness :
  abolished (SecureAdmin.state s_peter) = false /\
  admin (SecureAdmin.state s_peter) = Some "peter" /\
  mock_validate "miles" = Ok "miles" /\
  exists r1 r2,
    SecureAdmin.update mock_validate s_peter (mkMessageInfo "peter") (ProposeNewAdmin "miles") =
      (Ok r1, Some {| abolished := false; admin := Some "peter"; proposed := Some "miles" |}) /\
    SecureAdmin.update mock_validate
      (Some {| abolished := false; admin := Some "peter"; proposed := Some "miles" |})
      (mkMessageInfo "miles") AcceptProposed =
      (Ok r2, Some {| abolished := false; admin := Some "miles"; proposed := None |}).
Proof.
  split; [reflexivity|split; [reflexivity|split; [reflexivity|]]].
  exact (handover_composes mock_validate s_peter "peter" "miles" "miles"
           eq_refl eq_refl eq_refl).
Defined.

Lemma propose_then_clear_restores_witness :
  abolished (SecureAdmin.state s_peter) = false /\
  admin (SecureAdmin.state s_peter) = Some "peter" /\
  proposed (SecureAdmin.state s_peter) = None /\
  snd (SecureAdmin.update mock_validate
         (snd (SecureAdmin.update mock_validate s_peter (mkMessageInfo "peter")
                 (ProposeNewAdmin "miles")))
         (mkMessageInfo "peter") ClearProposed) = s_peter.
Proof.
  split; [reflexivity|split; [reflexivity|split; [reflexivity|]]].
  exact (propose_then_clear_restores mock_validate s_peter "peter" "miles"
           eq_refl eq_refl eq_refl).
Defined.



Lemma update_caller_authorised_witness :
  abolished (SecureAdmin.state s_proposed) = false /\
  SecureAdmin.is_proposed s_proposed "miles" = true.
Proof.
  exact (update_caller_authorised mock_validate s_proposed (mkMessageInfo "miles")
           AcceptProposed _ eq_refl).
Defined.

Lemma proposal_only_from_propose_witness :
  exists v, mock_validate "miles" = Ok v /\
    proposed (SecureAdmin.state s_proposed) = Some v.
Proof.
  exact (proposal_only_from_propose mock_validate s_peter (mkMessageInfo "peter")
           (ProposeNewAdmin "miles") _ eq_refl).
Defined.

Lemma update_without_admin_fails_witness :
  SecureAdmin.update mock_validate None (mkMessageInfo "peter") AcceptProposed =
    (Err NotProposedAdmin, None) /\
  SecureAdmin.update mock_validate None (mkMessageInfo "peter") (ProposeNewAdmin "abc") =
    (Err NotAdmin, None).
Proof.
  split.
  - exact (update_without_admin_fails mock_validate None (mkMessageInfo "peter")
             AcceptProposed eq_refl eq_refl eq_refl).
  - exact (update_without_admin_fails mock_validate None (mkMessageInfo "peter")
             (ProposeNewAdmin "abc") eq_refl eq_refl eq_refl).
Defined.

Lemma abolish_by_admin_witness :
  exists r, SecureAdmin.update mock_validate s_proposed (mkMessageInfo "peter")
              AbolishAdminRole =
    (Ok r, Some {| abolished := true; admin := None; proposed := None |}).
Proof.
  exact (abolish_by_admin mock_validate s_proposed "peter" eq_refl eq_refl).
Defined.

Lemma propose_invalid_by_admin_witness :
  SecureAdmin.update mock_validate s_peter (mkMessageInfo "peter") (ProposeNewAdmin "ab") =
    (Err (Std (GenericErr "Invalid input: human address too short")), s_peter).
Proof.
  exact (propose_invalid_by_admin mock_validate s_peter "peter" "ab" _
           eq_refl eq_refl eq_refl).
Defined.

Lemma storage_never_deleted_witness :
  s_peter <> None /\
  snd (SecureAdmin.update mock_validate s_peter (mkMessageInfo "doc_oc") AbolishAdminRole)
    <> None.
Proof.
  assert (Hs : s_peter <> None) by discriminate.
  split; [exact Hs|].
  exact (proj1 (proj2 (storage_never_deleted mock_validate s_peter)) Hs
           (mkMessageInfo "doc_oc") AbolishAdminRole).
Defined.

Lemma reachable_identities_validated_witness :
  identities_validated mock_validate (SecureAdmin.state s_proposed).
Proof.
  exact (reachable_identities_validated mock_validate s_proposed reachable_s_proposed).
Defined.
